(** * DataLakeFoundations: the provisioning pass of the data lake stack

    A shallow embedding of [common_cdk/foundations.py].  The constructor
    [DataLakeFoundations.__init__] is a single synchronous pass that creates
    constructs in the scope of the nested stack, stores handles in private
    (name-mangled) instance attributes, and assigns to or mutates two of
    the objects it created (the raw Glue database and the VPC).  It is
    embedded in a state and exception monad, in which a raised exception
    keeps the state reached so far (Python rolls nothing back), over
      - the instance dictionary of [self] (a finite map from attribute
        names to object references),
      - a heap of Python objects addressed by reference, so that the alias
        between [catalog.raw_database] and [self.__raw_glue_db] is kept,
      - the journal of what the pass did, in program order.
    What the imported libraries decide (the names and keys of the buckets
    of [DataLakeStorage], the databases of [DataLakeCatalog], the key of the
    logs bucket, the availability zones) is the [Context] of a build.

    The assignment of line 107 targets [location_uri], which the imported
    [aws_glue_alpha.Database] declares read-only.  It is refused, so every
    build stops there: the development states what holds of the stack the
    constructor has reached by then, and, for the parts after line 107,
    what they do on an arbitrary stack. *)

From Stdlib Require Import Ascii.
From stdpp Require Import gmap strings list fin_maps.

Open Scope string_scope.

(** ** Python objects *)

Definition ref := nat.

(** [aws_kms.IKey] *)
Record Key := { key_id : string }.

(** [aws_s3.IBucket]: [encryption_key] is [Optional[IKey]]. *)
Record Bucket := {
  bucket_name : string;
  encryption_key : option Key }.

(** [aws_glue_alpha.Database] *)
Record Database := {
  database_name : string;
  location_uri : option string }.

(** [aws_ec2.SubnetType] *)
Inductive SubnetType := PUBLIC | PRIVATE_WITH_NAT | PRIVATE_ISOLATED.

Record Subnet := {
  subnet_type : SubnetType;
  availability_zone : string;
  subnet_index : nat }.

(** [aws_ec2.SubnetSelection(subnet_type=...)] *)
Record SubnetSelection := { selection_subnet_type : SubnetType }.

Inductive GatewayVpcEndpointAwsService := S3 | DYNAMODB.

Record GatewayVpcEndpoint := {
  endpoint_id : string;
  service : GatewayVpcEndpointAwsService;
  endpoint_subnets : list SubnetSelection }.

Record Vpc := {
  vpc_subnets : list Subnet;
  gateway_endpoints : list GatewayVpcEndpoint }.

(** [aws_iam.Group] *)
Record Group := { group_name : string }.

(** The objects of the heap. *)
Inductive Obj :=
| OBucket (b : Bucket)
| ODatabase (d : Database)
| OVpc (v : Vpc)
| OSelectedSubnets (subnets : list Subnet)
| OGroup (g : Group).

(** The constructs the pass adds to the scope of the stack, with the
    arguments they were called with. *)
Inductive Construct :=
| DataLakeCatalog (raw_database clean_database transform_database : ref)
| GlueDatabase (db : ref)
| DataLakeStorage (raw_bucket clean_bucket transform_bucket : ref)
| AutoEmptyBucket (bucket : ref) (uuid : string)
| AuditTrailGlue (log_bucket audit_bucket audit_db : ref) (audit_table : string)
| LakeFormationS3Location (s3_bucket_name s3_object_key kms_key_id : string)
| VpcConstruct (vpc : ref)
| GroupConstruct (group : ref).

(** What the pass does, in program order. *)
Inductive Event :=
| Created (id : string) (c : Construct)
| AddGatewayEndpoint (vpc : ref) (e : GatewayVpcEndpoint).

Inductive PyError :=
| AttributeError (msg : string).

Inductive Result (A : Type) :=
| Ok (a : A)
| Raise (e : PyError).
Arguments Ok {A} a.
Arguments Raise {A} e.

(** ** The stack under construction *)

Record Stack := {
  attrs : gmap string ref;
  heap : list Obj;
  journal : list Event }.

Definition empty_stack : Stack :=
  {| attrs := ∅; heap := []; journal := [] |}.

(** ** The monad of the constructor: state and exceptions *)

Definition M (A : Type) : Type := Stack → Result A * Stack.

Definition ret {A} (a : A) : M A := λ s, (Ok a, s).

Definition bind {A B} (m : M A) (k : A → M B) : M B :=
  λ s, match m s with
       | (Ok a, s') => k a s'
       | (Raise e, s') => (Raise e, s')
       end.

Definition raise {A} (e : PyError) : M A := λ s, (Raise e, s).

#[export] Instance M_ret : MRet M := @ret.
#[export] Instance M_bind : MBind M := λ A B k m, bind m k.

(** Allocation of a fresh object; its reference is the next free index. *)
Definition alloc (o : Obj) : M ref :=
  λ s, (Ok (length (heap s)),
        {| attrs := attrs s; heap := heap s ++ [o]; journal := journal s |}).

Definition load (r : ref) : M Obj :=
  λ s, match heap s !! r with
       | Some o => (Ok o, s)
       | None => (Raise (AttributeError "dangling reference"), s)
       end.

Definition store (r : ref) (o : Obj) : M unit :=
  λ s, (Ok tt, {| attrs := attrs s; heap := <[r := o]> (heap s); journal := journal s |}).

Definition emit (e : Event) : M unit :=
  λ s, (Ok tt, {| attrs := attrs s; heap := heap s; journal := journal s ++ [e] |}).

(** ** Attribute access on [self]

    The class declares fifteen properties, each with a getter only.  Inside
    the class body a name [__x] is mangled to [_DataLakeFoundations__x]. *)

Definition mangle (name : string) : string := "_DataLakeFoundations" +:+ name.

(** Property name, and the private field its getter returns. *)
Definition properties : list (string * string) :=
  [ ("raw_s3_bucket", "__raw_s3_bucket");
    ("clean_s3_bucket", "__clean_s3_bucket");
    ("curated_s3_bucket", "__curated_s3_bucket");
    ("raw_glue_db", "__raw_glue_db");
    ("clean_glue_db", "__clean_glue_db");
    ("curated_glue_db", "__curated_glue_db");
    ("audit_glue_db", "__audit_glue_db");
    ("logs_s3_bucket", "__logs_s3_bucket");
    ("vpc", "__vpc");
    ("private_subnets_selection", "__private_subnets");
    ("public_subnets_selection", "__public_subnets");
    ("admin_group", "__admin_group");
    ("analysts_group", "__analysts_group");
    ("developers_group", "__developers_group");
    ("lf_admin_role", "__lf_admin_role") ].

Fixpoint assoc {V : Type} (k : string) (l : list (string * V)) : option V :=
  match l with
  | [] => None
  | (k', v) :: l' => if String.eqb k k' then Some v else assoc k l'
  end.

(** Lookup in the instance dictionary. *)
Definition instance_get (name : string) : M ref :=
  λ s, match attrs s !! name with
       | Some r => (Ok r, s)
       | None => (Raise (AttributeError
                   ("'DataLakeFoundations' object has no attribute '" +:+ name +:+ "'")), s)
       end.

Definition instance_set (name : string) (r : ref) : M unit :=
  λ s, (Ok tt, {| attrs := <[name := r]> (attrs s); heap := heap s; journal := journal s |}).

(** [getattr(self, name)]: a property is a data descriptor and takes
    precedence over the instance dictionary; its getter reads the mangled
    private field. *)
Definition py_getattr (name : string) : M ref :=
  match assoc name properties with
  | Some field => instance_get (mangle field)
  | None => instance_get name
  end.

(** [setattr(self, name, v)]: a property without a setter refuses the
    assignment.  (The attributes the class inherits from [NestedStack] are
    outside this model: only the fifteen properties declared in the file
    are data descriptors here.) *)
Definition py_setattr (name : string) (r : ref) : M unit :=
  match assoc name properties with
  | Some _ => raise (AttributeError "can't set attribute")
  | None => instance_set name r
  end.

(** [delattr(self, name)]: a property without a deleter refuses. *)
Definition py_delattr (name : string) : M unit :=
  match assoc name properties with
  | Some _ => raise (AttributeError "can't delete attribute")
  | None => λ s,
      match attrs s !! name with
      | Some _ => (Ok tt, {| attrs := delete name (attrs s); heap := heap s;
                             journal := journal s |})
      | None => (Raise (AttributeError name), s)
      end
  end.

(** [self.__x] and [self.__x = v] inside the class body. *)
Definition get_private (field : string) : M ref := py_getattr (mangle field).
Definition set_private (field : string) (r : ref) : M unit := py_setattr (mangle field) r.

(** Typed reads of the heap. *)
Definition load_bucket (r : ref) : M Bucket :=
  o ← load r;
  match o with
  | OBucket b => ret b
  | _ => raise (AttributeError "object has no attribute 'bucket_name'")
  end.

Definition load_database (r : ref) : M Database :=
  o ← load r;
  match o with
  | ODatabase d => ret d
  | _ => raise (AttributeError "object has no attribute 'location_uri'")
  end.

Definition load_vpc (r : ref) : M Vpc :=
  o ← load r;
  match o with
  | OVpc v => ret v
  | _ => raise (AttributeError "object has no attribute 'select_subnets'")
  end.

(** [b.encryption_key.key_id]: the attribute read on [None] raises. *)
Definition encryption_key_id (b : Bucket) : M string :=
  match encryption_key b with
  | Some k => ret (key_id k)
  | None => raise (AttributeError "'NoneType' object has no attribute 'key_id'")
  end.

(** ** What the build receives from outside

    [DataLakeCatalog], [DataLakeStorage] and [AutoEmptyBucket] are imported;
    the databases and buckets they hand out are inputs of the pass, and so
    are the account of the stack, the UUID constant of [AutoEmptyConfig] and
    the availability zones of the environment. *)
Record Context := {
  account : string;
  catalog_raw : Database;
  catalog_clean : Database;
  catalog_transform : Database;
  storage_raw : Bucket;
  storage_clean : Bucket;
  storage_transform : Bucket;
  logs_encryption_key : option Key;
  FOUNDATIONS_UUID : string;
  availability_zones : list string }.

(** ** The imported constructs *)

Record Catalog := {
  raw_database : ref;
  clean_database : ref;
  transform_database : ref }.

Record Storage := {
  raw_bucket : ref;
  clean_bucket : ref;
  transform_bucket : ref }.

(** [DataLakeCatalog(self, id)] *)
Definition new_DataLakeCatalog (ctx : Context) (id : string) : M Catalog :=
  raw ← alloc (ODatabase (catalog_raw ctx));
  clean ← alloc (ODatabase (catalog_clean ctx));
  transform ← alloc (ODatabase (catalog_transform ctx));
  emit (Created id (DataLakeCatalog raw clean transform));;
  mret {| raw_database := raw; clean_database := clean; transform_database := transform |}.

(** [Database(self, id, database_name=name)]: no location is passed. *)
Definition new_Database (id name : string) : M ref :=
  db ← alloc (ODatabase {| database_name := name; location_uri := None |});
  emit (Created id (GlueDatabase db));;
  mret db.

(** [DataLakeStorage(self, id)] *)
Definition new_DataLakeStorage (ctx : Context) (id : string) : M Storage :=
  raw ← alloc (OBucket (storage_raw ctx));
  clean ← alloc (OBucket (storage_clean ctx));
  transform ← alloc (OBucket (storage_transform ctx));
  emit (Created id (DataLakeStorage raw clean transform));;
  mret {| raw_bucket := raw; clean_bucket := clean; transform_bucket := transform |}.

(** [AutoEmptyBucket(self, id, bucket_name=name, uuid=uuid).bucket] *)
Definition new_AutoEmptyBucket (ctx : Context) (id name uuid : string) : M ref :=
  b ← alloc (OBucket {| bucket_name := name; encryption_key := logs_encryption_key ctx |});
  emit (Created id (AutoEmptyBucket b uuid));;
  mret b.

(** [AuditTrailGlue(self, id, log_bucket=.., audit_bucket=.., audit_db=..,
    audit_table=..)] *)
Definition new_AuditTrailGlue (id : string) (log_bucket audit_bucket audit_db : ref)
    (audit_table : string) : M unit :=
  emit (Created id (AuditTrailGlue log_bucket audit_bucket audit_db audit_table)).

(** [LakeFormationS3Location(self, id, s3_location={"bucket_name": ..,
    "object_key": ..}, kms_key_id=..)] *)
Definition new_LakeFormationS3Location (id s3_bucket_name s3_object_key kms_key_id : string)
    : M unit :=
  emit (Created id (LakeFormationS3Location s3_bucket_name s3_object_key kms_key_id)).

#[export] Instance SubnetType_eq_dec : EqDecision SubnetType.
Proof. solve_decision. Defined.

Definition subnets_of_type (t : SubnetType) (azs : list string) : list Subnet :=
  imap (λ i az, {| subnet_type := t; availability_zone := az; subnet_index := S i |}) azs.

(** Modelled from the spec: the subnets that [aws_ec2.Vpc] provisions when
    it is created with no subnet configuration are not in the source; by
    section 4.6 every subnet the network provisions by default is public or
    private-with-NAT.  One subnet of each of the two kinds is laid out per
    availability zone. *)
Definition default_subnets (azs : list string) : list Subnet :=
  subnets_of_type PUBLIC azs ++ subnets_of_type PRIVATE_WITH_NAT azs.

(** [Vpc(self, id)] *)
Definition new_Vpc (ctx : Context) (id : string) : M ref :=
  v ← alloc (OVpc {| vpc_subnets := default_subnets (availability_zones ctx);
                     gateway_endpoints := [] |});
  emit (Created id (VpcConstruct v));;
  mret v.

(** Modelled from the spec: [Vpc.select_subnets(subnet_type=t)] is not in
    the source; by section 4.6 a selection is the part of the network's
    subnets that has the requested type. *)
Definition select (t : SubnetType) (subnets : list Subnet) : list Subnet :=
  filter (λ s, subnet_type s = t) subnets.

Definition select_subnets (vpc : ref) (t : SubnetType) : M ref :=
  v ← load_vpc vpc;
  alloc (OSelectedSubnets (select t (vpc_subnets v))).

(** [vpc.add_gateway_endpoint(id, service=.., subnets=..)] mutates the
    network object. *)
Definition add_gateway_endpoint (vpc : ref) (id : string)
    (svc : GatewayVpcEndpointAwsService) (subnets : list SubnetSelection) : M unit :=
  v ← load_vpc vpc;
  let e := {| endpoint_id := id; service := svc; endpoint_subnets := subnets |} in
  store vpc (OVpc {| vpc_subnets := vpc_subnets v;
                     gateway_endpoints := gateway_endpoints v ++ [e] |});;
  emit (AddGatewayEndpoint vpc e).

(** [Group(self, id, group_name=name)] *)
Definition new_Group (id name : string) : M ref :=
  g ← alloc (OGroup {| group_name := name |});
  emit (Created id (GroupConstruct g));;
  mret g.

(** [db.location_uri = uri].  [aws_glue_alpha.Database] declares
    [location_uri] read-only: in Python it is a property with a getter and
    no setter, exactly as the properties of [DataLakeFoundations] above.
    The assignment is refused and the object stays as it is. *)
Definition set_location_uri (db : ref) (uri : string) : M unit :=
  _ ← load_database db;
  raise (AttributeError "can't set attribute").

(** The right-hand side of line 107. *)
Definition raw_location_uri (raw_bucket_name : string) : string :=
  "s3:////" +:+ raw_bucket_name.

(** [self.__x] read as a bucket, for [self.__x.bucket_name] and
    [self.__x.encryption_key]. *)
Definition private_bucket (field : string) : M Bucket :=
  r ← get_private field;
  load_bucket r.

(** ** The constructor, statement by statement

    The parts follow the comments that divide the body of [__init__]. *)

(** Lines 82-86: the glue data catalog databases. *)
Definition catalog_databases (ctx : Context) : M unit :=
  catalog ← new_DataLakeCatalog ctx "DataLakeCatalog";
  set_private "__raw_glue_db" (raw_database catalog);;
  set_private "__clean_glue_db" (clean_database catalog);;
  set_private "__curated_glue_db" (transform_database catalog);;
  audit ← new_Database "AuditGlueDB" ("ara_audit_data_" +:+ account ctx);
  set_private "__audit_glue_db" audit.

(** Lines 89-98: the S3 buckets. *)
Definition storage_buckets (ctx : Context) : M unit :=
  storage ← new_DataLakeStorage ctx "DataLakeStorage";
  logs ← new_AutoEmptyBucket ctx "Logs" ("ara-logs-" +:+ account ctx) (FOUNDATIONS_UUID ctx);
  set_private "__logs_s3_bucket" logs;;
  set_private "__raw_s3_bucket" (raw_bucket storage);;
  set_private "__clean_s3_bucket" (clean_bucket storage);;
  set_private "__curated_s3_bucket" (transform_bucket storage).

(** Lines 100-105: the audit trail; keyword arguments are evaluated left
    to right. *)
Definition audit_trail : M unit :=
  log_bucket ← get_private "__logs_s3_bucket";
  audit_bucket ← get_private "__curated_s3_bucket";
  audit_db ← get_private "__audit_glue_db";
  audit_table ← private_bucket "__curated_s3_bucket";
  new_AuditTrailGlue "GlueAudit" log_bucket audit_bucket audit_db (bucket_name audit_table).

(** Line 107: the location of the raw database; the right-hand side is
    evaluated first, then the target, then the assignment. *)
Definition raw_location : M unit :=
  raw_s3 ← private_bucket "__raw_s3_bucket";
  raw_db ← get_private "__raw_glue_db";
  set_location_uri raw_db (raw_location_uri (bucket_name raw_s3)).

(** One registration of lines 113-133, for the bucket in [field]. *)
Definition register_location (id field : string) : M unit :=
  b ← private_bucket field;
  key ← private_bucket field ≫= encryption_key_id;
  new_LakeFormationS3Location id (bucket_name b) "" key.

(** Lines 113-133: lake formation locations.  The registration of the
    logs bucket (lines 135-142) is commented out in the source. *)
Definition register_locations : M unit :=
  register_location "S3LocationRaw" "__raw_s3_bucket";;
  register_location "S3LocationClean" "__clean_s3_bucket";;
  register_location "S3LocationTransform" "__curated_s3_bucket".

(** Lines 146-152: the vpc. *)
Definition network (ctx : Context) : M unit :=
  vpc ← new_Vpc ctx "Vpc";
  set_private "__vpc" vpc;;
  public ← get_private "__vpc" ≫= (λ v, select_subnets v PUBLIC);
  set_private "__public_subnets" public;;
  private ← get_private "__vpc" ≫= (λ v, select_subnets v PRIVATE_WITH_NAT);
  set_private "__private_subnets" private;;
  v ← get_private "__vpc";
  add_gateway_endpoint v "S3GatewayEndpoint" S3
    [ {| selection_subnet_type := PUBLIC |};
      {| selection_subnet_type := PRIVATE_WITH_NAT |} ].

(** Lines 155-157: IAM groups. *)
Definition identity_groups : M unit :=
  admins ← new_Group "GroupAdmins" "ara-admins";
  set_private "__admin_group" admins;;
  analysts ← new_Group "GroupAnalysts" "ara-analysts";
  set_private "__analysts_group" analysts;;
  developers ← new_Group "GroupDevelopers" "ara-developers";
  set_private "__developers_group" developers.

Definition __init__ (ctx : Context) : M unit :=
  catalog_databases ctx;;
  storage_buckets ctx;;
  audit_trail;;
  raw_location;;
  register_locations;;
  network ctx;;
  identity_groups.

(** The parts of the constructor, in order. *)
Definition parts (ctx : Context) : list (M unit) :=
  [ catalog_databases ctx; storage_buckets ctx; audit_trail; raw_location;
    register_locations; network ctx; identity_groups ].

(** The parts run one after the other, up to the first that raises. *)
Definition in_sequence (ps : list (M unit)) : M unit :=
  foldr (λ p rest, p;; rest) (mret tt) ps.

(** A build runs the constructor on a fresh stack; it yields the outcome
    and the stack the constructor leaves behind. *)
Definition build (ctx : Context) : Result unit * Stack :=
  __init__ ctx empty_stack.

Definition location_fault : PyError := AttributeError "can't set attribute".


(** ** The stack the constructor leaves behind

    The constructor is straight-line code up to line 107, where the
    assignment to [location_uri] is refused; the stack it has reached by
    then is the one below ([build_aborts]).  References are allocation
    order. *)

(** Private field, and the reference the constructor stores in it. *)
Definition handle_table : list (string * ref) :=
  [ ("__raw_glue_db", 0); ("__clean_glue_db", 1); ("__curated_glue_db", 2);
    ("__audit_glue_db", 3); ("__logs_s3_bucket", 7); ("__raw_s3_bucket", 4);
    ("__clean_s3_bucket", 5); ("__curated_s3_bucket", 6) ].

Definition aborted_attrs : gmap string ref :=
  list_to_map (prod_map mangle id <$> handle_table).

(** The reference behind a property, through its private field. *)
Definition handle_of (a : string) : option ref :=
  match assoc a properties with
  | Some field => assoc field handle_table
  | None => None
  end.

Definition aborted_heap (ctx : Context) : list Obj :=
  [ ODatabase (catalog_raw ctx);
    ODatabase (catalog_clean ctx);
    ODatabase (catalog_transform ctx);
    ODatabase {| database_name := "ara_audit_data_" +:+ account ctx; location_uri := None |};
    OBucket (storage_raw ctx);
    OBucket (storage_clean ctx);
    OBucket (storage_transform ctx);
    OBucket {| bucket_name := "ara-logs-" +:+ account ctx;
               encryption_key := logs_encryption_key ctx |} ].

Definition aborted_journal (ctx : Context) : list Event :=
  [ Created "DataLakeCatalog" (DataLakeCatalog 0 1 2);
    Created "AuditGlueDB" (GlueDatabase 3);
    Created "DataLakeStorage" (DataLakeStorage 4 5 6);
    Created "Logs" (AutoEmptyBucket 7 (FOUNDATIONS_UUID ctx));
    Created "GlueAudit" (AuditTrailGlue 7 6 3 (bucket_name (storage_transform ctx))) ].

Definition aborted (ctx : Context) : Stack :=
  {| attrs := aborted_attrs; heap := aborted_heap ctx; journal := aborted_journal ctx |}.

(** ** Observations

    What a consumer of the stack sees: reads through the accessors, and the
    objects behind the handles they return. *)

Definition read (name : string) (s : Stack) : Result ref := (py_getattr name s).1.

Definition deref (name : string) (s : Stack) : option Obj :=
  match read name s with
  | Ok r => heap s !! r
  | Raise _ => None
  end.

Definition bucket_of (name : string) (s : Stack) : option Bucket :=
  match deref name s with Some (OBucket b) => Some b | _ => None end.

Definition database_of (name : string) (s : Stack) : option Database :=
  match deref name s with Some (ODatabase d) => Some d | _ => None end.


(** The accessors whose fields are stored by line 98. *)
Definition tier_accessors : list string :=
  [ "raw_s3_bucket"; "clean_s3_bucket"; "curated_s3_bucket"; "logs_s3_bucket";
    "raw_glue_db"; "clean_glue_db"; "curated_glue_db"; "audit_glue_db" ].

(** The accessors whose fields are stored at lines 146-157 only. *)
Definition late_accessors : list string :=
  [ "vpc"; "public_subnets_selection"; "private_subnets_selection";
    "admin_group"; "analysts_group"; "developers_group" ].

(** ** Reading the journal *)

(** The event is the creation of the construct that hands out object [r]. *)
Definition produces (r : ref) (e : Event) : bool :=
  match e with
  | Created _ (DataLakeCatalog a b c) => bool_decide (r ∈ [a; b; c])
  | Created _ (GlueDatabase d) => bool_decide (r = d)
  | Created _ (DataLakeStorage a b c) => bool_decide (r ∈ [a; b; c])
  | Created _ (AutoEmptyBucket b _) => bool_decide (r = b)
  | Created _ (VpcConstruct v) => bool_decide (r = v)
  | Created _ (GroupConstruct g) => bool_decide (r = g)
  | _ => false
  end.

Definition is_audit_trail (e : Event) : bool :=
  match e with
  | Created _ (AuditTrailGlue _ _ _ _) => true
  | _ => false
  end.


(** Index of the first event satisfying [P]. *)
Fixpoint position (P : Event → bool) (j : list Event) : option nat :=
  match j with
  | [] => None
  | e :: j' => if P e then Some 0 else S <$> position P j'
  end.


(** A governed-location registration: construct id, bucket name, key id. *)
Record Registration := {
  registration_id : string;
  registered_bucket : string;
  registered_key : string }.

Definition registrations (j : list Event) : list Registration :=
  omap (λ e, match e with
             | Created id (LakeFormationS3Location b _ k) =>
                 Some {| registration_id := id; registered_bucket := b;
                         registered_key := k |}
             | _ => None
             end) j.

(** The arguments of the audit-trail binder, for each time it was invoked. *)
Definition audit_trail_calls (j : list Event) : list (ref * ref * ref * string) :=
  omap (λ e, match e with
             | Created _ (AuditTrailGlue l a d t) => Some (l, a, d, t)
             | _ => None
             end) j.

(** The identity groups created, in order. *)
Definition groups_created (s : Stack) : list Group :=
  omap (λ e, match e with
             | Created _ (GroupConstruct g) =>
                 match heap s !! g with Some (OGroup x) => Some x | _ => None end
             | _ => None
             end) (journal s).

(** The ids of the constructs added to the scope of the stack, in order. *)
Definition construct_ids (j : list Event) : list string :=
  omap (λ e, match e with Created id _ => Some id | _ => None end) j.



(** ** The public interface after construction *)

Inductive Op :=
| Getattr (name : string)
| Setattr (name : string) (v : ref)
| Delattr (name : string).


(** A public name does not start with an underscore. *)
Definition public (name : string) : bool :=
  match name with
  | String c _ => negb (Ascii.eqb c "_"%char)
  | EmptyString => true
  end.

Definition run_op (o : Op) : M unit :=
  match o with
  | Getattr n => _ ← py_getattr n; mret tt
  | Setattr n v => py_setattr n v
  | Delattr n => py_delattr n
  end.

(** The stack after an operation, whether it raised or not. *)
Definition after_op (s : Stack) (o : Op) : Stack := (run_op o s).2.


(** A part of the constructor leaves the private field [k] as it is, on
    every stack. *)
Definition keeps (k : string) {A : Type} (m : M A) : Prop :=
  ∀ s, attrs (m s).2 !! k = attrs s !! k.

(** ** Sample contexts *)

Definition key0 (name : string) : Key := {| key_id := name |}.

Definition ctx0 : Context :=
  {| account := "111122223333";
     catalog_raw := {| database_name := "raw"; location_uri := None |};
     catalog_clean := {| database_name := "clean"; location_uri := None |};
     catalog_transform := {| database_name := "transform"; location_uri := None |};
     storage_raw := {| bucket_name := "raw-111122223333";
                       encryption_key := Some (key0 "key-raw") |};
     storage_clean := {| bucket_name := "clean-111122223333";
                         encryption_key := Some (key0 "key-clean") |};
     storage_transform := {| bucket_name := "transform-111122223333";
                             encryption_key := Some (key0 "key-transform") |};
     logs_encryption_key := None;
     FOUNDATIONS_UUID := "foundations";
     availability_zones := ["az-a"; "az-b"] |}.

(** As [ctx0], but the raw bucket carries no key. *)
Definition ctx_keyless_raw : Context :=
  {| account := account ctx0;
     catalog_raw := catalog_raw ctx0;
     catalog_clean := catalog_clean ctx0;
     catalog_transform := catalog_transform ctx0;
     storage_raw := {| bucket_name := "raw-111122223333"; encryption_key := None |};
     storage_clean := storage_clean ctx0;
     storage_transform := storage_transform ctx0;
     logs_encryption_key := None;
     FOUNDATIONS_UUID := FOUNDATIONS_UUID ctx0;
     availability_zones := availability_zones ctx0 |}.

(** * Symbolic execution of the constructor *)

(** Every build aborts at line 107, with the stack [aborted]. *)
Lemma build_aborts (ctx : Context) : build ctx = (Raise location_fault, aborted ctx).
Proof.
  destruct ctx as [acct dr dc dt br bc bt lk uuid azs].
  vm_compute. reflexivity.
Qed.

(** * Reads of a stack *)

Section Reads.
Implicit Types (s : Stack) (a field n k : string) (r v : ref).

(** The getter of a property returns the private field behind it. *)
Lemma read_property a field s :
  assoc a properties = Some field →
  read a s =
    match attrs s !! mangle field with
    | Some r => Ok r
    | None => Raise (AttributeError
                ("'DataLakeFoundations' object has no attribute '" +:+ mangle field +:+ "'"))
    end.
Proof.
  intros E. unfold read, py_getattr, instance_get. rewrite E.
  destruct (attrs s !! mangle field); reflexivity.
Qed.

Lemma instance_get_pure n s : (instance_get n s).2 = s.
Proof. unfold instance_get. destruct (attrs s !! n); reflexivity. Qed.

(** A read leaves the stack as it is, whether it raises or not. *)
Lemma py_getattr_pure n s : (py_getattr n s).2 = s.
Proof. unfold py_getattr. destruct (assoc n properties); apply instance_get_pure. Qed.

Lemma assoc_elem_of {V : Type} k (x : V) (l : list (string * V)) :
  assoc k l = Some x → (k, x) ∈ l.
Proof.
  induction l as [| [k' x'] l IH]; cbn [assoc]; [discriminate |].
  destruct (String.eqb k k') eqn:E.
  - apply String.eqb_eq in E as ->. intros [= ->]. apply list_elem_of_here.
  - intros H. apply list_elem_of_further, IH, H.
Qed.

Lemma aborted_attrs_lookup field r :
  (field, r) ∈ handle_table → aborted_attrs !! mangle field = Some r.
Proof.
  intros Hin. apply elem_of_list_to_map_1.
  - apply (bool_decide_unpack _). vm_compute. exact I.
  - apply list_elem_of_fmap. exists (field, r). split; [reflexivity | exact Hin].
Qed.

Lemma aborted_attrs_absent field :
  field ∉ handle_table.*1 → aborted_attrs !! mangle field = None.
Proof.
  intros Hn. apply not_elem_of_list_to_map_1. intros Hin. apply Hn.
  apply list_elem_of_fmap in Hin as ([f' r'] & E & Hin).
  apply list_elem_of_fmap in Hin as ([f r] & [= -> ->] & Hin).
  cbn in E. apply (inj (String.append _)) in E as ->.
  apply list_elem_of_fmap. exists (f, r). split; [reflexivity | exact Hin].
Qed.

Lemma aborted_read (ctx : Context) a r :
  handle_of a = Some r → read a (aborted ctx) = Ok r.
Proof.
  unfold handle_of. destruct (assoc a properties) as [field |] eqn:E; [| discriminate].
  intros Hin%assoc_elem_of. rewrite (read_property a field _ E). cbn [attrs aborted].
  by rewrite (aborted_attrs_lookup field r Hin).
Qed.

Lemma aborted_deref (ctx : Context) a r :
  handle_of a = Some r → deref a (aborted ctx) = aborted_heap ctx !! r.
Proof. intros E. unfold deref. by rewrite (aborted_read ctx a r E). Qed.

(** A property whose field the constructor has not stored raises. *)
Lemma aborted_unread (ctx : Context) a field :
  assoc a properties = Some field → field ∉ handle_table.*1 →
  py_getattr a (aborted ctx) =
    (Raise (AttributeError
       ("'DataLakeFoundations' object has no attribute '" +:+ mangle field +:+ "'")),
     aborted ctx).
Proof.
  intros E Hn. unfold py_getattr, instance_get. rewrite E. cbn [attrs aborted].
  by rewrite (aborted_attrs_absent field Hn).
Qed.
End Reads.

(** Membership in a closed list, by evaluation. *)
Ltac in_table := apply (bool_decide_unpack _); vm_compute; exact I.

(** Goals that read the aborted stack through an accessor. *)
Ltac aborted_obs :=
  lazymatch goal with
  | |- read _ (aborted _) = _ => apply aborted_read; reflexivity
  | |- context [deref _ (aborted _)] =>
      erewrite aborted_deref by reflexivity; reflexivity
  | |- context [bucket_of _ (aborted _)] => unfold bucket_of; aborted_obs
  | |- context [database_of _ (aborted _)] => unfold database_of; aborted_obs
  | |- _ => reflexivity
  end.

(** * The properties of the class *)

Section Interface.
Implicit Types (s : Stack) (o : Op) (a field n k : string) (v : ref).

Lemma public_mangle field : public (mangle field) = false.
Proof. reflexivity. Qed.


(** Every property name is public. *)
Lemma property_names_public a field : assoc a properties = Some field → public a = true.
Proof.
  unfold properties. cbn [assoc].
  repeat match goal with
         | |- context [String.eqb a ?x] => destruct (String.eqb_spec a x) as [-> | _]
         end; [reflexivity .. | discriminate].
Qed.

(** A mangled name is not the name of a property. *)
Lemma mangled_not_property field : assoc (mangle field) properties = None.
Proof.
  destruct (assoc (mangle field) properties) as [f |] eqn:E; [| reflexivity].
  apply property_names_public in E. rewrite public_mangle in E. discriminate E.
Qed.

Lemma after_setattr_mangled s field v :
  attrs (after_op s (Setattr (mangle field) v)) = <[mangle field := v]> (attrs s).
Proof.
  unfold after_op. cbn [run_op]. unfold py_setattr.
  rewrite mangled_not_property. reflexivity.
Qed.

Lemma after_delattr_mangled s field :
  is_Some (attrs s !! mangle field) →
  attrs (after_op s (Delattr (mangle field))) = delete (mangle field) (attrs s).
Proof.
  intros [r E]. unfold after_op. cbn [run_op]. unfold py_delattr.
  rewrite mangled_not_property, E. reflexivity.
Qed.




End Interface.

(** * What the parts of the constructor leave alone *)

Section Frame.
Context (k : string).

Lemma keeps_ret {A : Type} (a : A) : keeps k (mret a).
Proof. intros s. reflexivity. Qed.

Lemma keeps_raise {A : Type} (e : PyError) : keeps k (@raise A e).
Proof. intros s. reflexivity. Qed.

Lemma keeps_bind {A B : Type} (m : M A) (f : A → M B) :
  keeps k m → (∀ a, keeps k (f a)) → keeps k (m ≫= f).
Proof.
  intros Hm Hf s. unfold mbind, M_bind, bind. specialize (Hm s).
  destruct (m s) as [[a | e] s']; cbn in Hm |- *; [| exact Hm].
  rewrite <-Hm. apply Hf.
Qed.

Lemma keeps_alloc (o : Obj) : keeps k (alloc o).
Proof. intros s. reflexivity. Qed.

Lemma keeps_load (r : ref) : keeps k (load r).
Proof. intros s. unfold load. destruct (heap s !! r); reflexivity. Qed.

Lemma keeps_store (r : ref) (o : Obj) : keeps k (store r o).
Proof. intros s. reflexivity. Qed.

Lemma keeps_emit (e : Event) : keeps k (emit e).
Proof. intros s. reflexivity. Qed.

Lemma keeps_get_private (field : string) : keeps k (get_private field).
Proof. intros s. unfold get_private. by rewrite py_getattr_pure. Qed.

Lemma keeps_set_private (field : string) (r : ref) :
  mangle field ≠ k → keeps k (set_private field r).
Proof.
  intros Hne s. unfold set_private, py_setattr. rewrite mangled_not_property.
  cbn. by apply lookup_insert_ne.
Qed.

Lemma keeps_load_bucket (r : ref) : keeps k (load_bucket r).
Proof.
  apply keeps_bind; [apply keeps_load |].
  intros [] ; first [apply keeps_ret | apply keeps_raise].
Qed.

Lemma keeps_load_database (r : ref) : keeps k (load_database r).
Proof.
  apply keeps_bind; [apply keeps_load |].
  intros [] ; first [apply keeps_ret | apply keeps_raise].
Qed.

Lemma keeps_load_vpc (r : ref) : keeps k (load_vpc r).
Proof.
  apply keeps_bind; [apply keeps_load |].
  intros [] ; first [apply keeps_ret | apply keeps_raise].
Qed.

Lemma keeps_encryption_key_id (b : Bucket) : keeps k (encryption_key_id b).
Proof.
  unfold encryption_key_id. destruct (encryption_key b);
    first [apply keeps_ret | apply keeps_raise].
Qed.
End Frame.

Create HintDb keeps.
#[export] Hint Resolve keeps_ret keeps_raise keeps_bind keeps_alloc keeps_load keeps_store
  keeps_emit keeps_get_private keeps_set_private keeps_load_bucket keeps_load_database
  keeps_load_vpc keeps_encryption_key_id : keeps.
#[export] Hint Extern 1 (mangle _ ≠ mangle _) =>
  (let E := fresh in intros E; vm_compute in E; discriminate E) : keeps.

(** Unfolds a part into its primitive steps and discharges each. *)
Ltac keeps_part :=
  unfold catalog_databases, storage_buckets, audit_trail, raw_location, register_locations,
    register_location, network, identity_groups, new_DataLakeCatalog, new_Database,
    new_DataLakeStorage, new_AutoEmptyBucket, new_AuditTrailGlue,
    new_LakeFormationS3Location, new_Vpc, new_Group, select_subnets, add_gateway_endpoint,
    set_location_uri, private_bucket;
  auto 30 with keeps.

Lemma bind_ext {A B : Type} (m : M A) (f g : A → M B) (s : Stack) :
  (∀ a s', f a s' = g a s') → (m ≫= f) s = (m ≫= g) s.
Proof.
  intros H. unfold mbind, M_bind, bind. destruct (m s) as [[a | e] s']; [apply H | reflexivity].
Qed.

Lemma bind_ret_tt (m : M unit) (s : Stack) : (m;; mret tt) s = m s.
Proof.
  unfold mbind, M_bind, bind. destruct (m s) as [[[] | e] s']; reflexivity.
Qed.

(** The constructor is its parts, run in sequence. *)
Lemma init_in_sequence (ctx : Context) (s : Stack) :
  __init__ ctx s = in_sequence (parts ctx) s.
Proof.
  unfold __init__, in_sequence, parts. cbn [foldr].
  do 6 (apply bind_ext; intros _ ?). symmetry. apply bind_ret_tt.
Qed.

(** No part of the constructor stores [__lf_admin_role]: the assignment of
    line 112 is commented out. *)
Lemma parts_keep_lf_admin_role (ctx : Context) :
  Forall (keeps (mangle "__lf_admin_role")) (parts ctx).
Proof. unfold parts. repeat (apply Forall_cons; split; [keeps_part |]). apply Forall_nil_2. Qed.

(** * The registrar on an arbitrary stack *)

Section Registrar.
Implicit Types (s : Stack) (b : Bucket) (a field id : string) (r : ref).




End Registrar.

(** * The raw database location *)

Lemma raw_location_refused (ctx : Context) :
  raw_location (aborted ctx) = (Raise location_fault, aborted ctx).
Proof.
  destruct ctx as [acct dr dc dt br bc bt lk uuid azs].
  vm_compute. reflexivity.
Qed.

(** C1: in every build the assignment of line 107 is refused.  The
    constructor raises there, the stack stays as it was before the
    statement, the raw database behind [raw_glue_db] is still the object
    [DataLakeCatalog] handed out, with the location the catalog gave it,
    and the value the statement tried to assign was not ["storage://"]
    followed by the bucket name and ["/"] in the first place. *)
Theorem raw_location_assignment_refused (ctx : Context) :
  ∃ st,
    build ctx = (Raise location_fault, st) ∧
    raw_location st = (Raise location_fault, st) ∧
    database_of "raw_glue_db" st = Some (catalog_raw ctx) ∧
    bucket_of "raw_s3_bucket" st = Some (storage_raw ctx) ∧
    raw_location_uri (bucket_name (storage_raw ctx)) ≠
      "storage://" +:+ bucket_name (storage_raw ctx) +:+ "/".
Proof.
  exists (aborted ctx).
  split_and!; [apply build_aborts | apply raw_location_refused | aborted_obs ..|].
  intros E. vm_compute in E. discriminate E.
Qed.

(** C9: no location is ever assigned.  The one assignment the constructor
    attempts, on the raw database and after the construct that hands out
    the raw bucket was created, is refused; the four databases are, when
    the constructor stops, as they were created. *)
Theorem location_uri_never_assigned (ctx : Context) :
  ∃ st raw_b i,
    build ctx = (Raise location_fault, st) ∧
    read "raw_s3_bucket" st = Ok raw_b ∧
    position (produces raw_b) (journal st) = Some i ∧
    database_of "raw_glue_db" st = Some (catalog_raw ctx) ∧
    database_of "clean_glue_db" st = Some (catalog_clean ctx) ∧
    database_of "curated_glue_db" st = Some (catalog_transform ctx) ∧
    database_of "audit_glue_db" st =
      Some {| database_name := "ara_audit_data_" +:+ account ctx; location_uri := None |}.
Proof.
  exists (aborted ctx), 4, 2.
  split_and!; [apply build_aborts | aborted_obs ..].
Qed.

(** * The parts the constructor never reaches *)

(** C3: no registration is attempted in any build: the constructor has
    stopped at line 107, before lines 113-133. *)
Theorem registrar_is_never_reached (ctx : Context) :
  ∃ st,
    build ctx = (Raise location_fault, st) ∧
    registrations (journal st) = [].
Proof. exists (aborted ctx). split; [apply build_aborts | reflexivity]. Qed.

Ltac unread field :=
  eexists; apply (aborted_unread _ _ field); [reflexivity | in_table].


(** C6: no identity group is created in any build: the constructor has
    stopped before lines 155-157, and the three group accessors raise. *)
Theorem groups_are_never_created (ctx : Context) :
  ∃ st,
    build ctx = (Raise location_fault, st) ∧
    groups_created st = [] ∧
    ∀ a, a ∈ ["admin_group"; "analysts_group"; "developers_group"] →
      ∃ msg, py_getattr a st = (Raise (AttributeError msg), st).
Proof.
  exists (aborted ctx). split_and!; [apply build_aborts | reflexivity |].
  intros a Ha. repeat (apply elem_of_cons in Ha as [-> | Ha]); [ .. | inversion Ha].
  - unread "__admin_group".
  - unread "__analysts_group".
  - unread "__developers_group".
Qed.

(** * The governed-location registrar *)




(** * The audit trail *)

(** C7: in every build the audit-trail binder is invoked once (before the
    constructor stops at line 107), with the logs bucket, the curated
    bucket and the audit database; the constructs that hand out these three
    objects were created before it, and the audit table it receives is the
    name of the curated bucket. *)
Theorem audit_trail_arguments (ctx : Context) :
  ∃ st logs curated audit_db b n,
    build ctx = (Raise location_fault, st) ∧
    read "logs_s3_bucket" st = Ok logs ∧
    read "curated_s3_bucket" st = Ok curated ∧
    read "audit_glue_db" st = Ok audit_db ∧
    is_Some (bucket_of "logs_s3_bucket" st) ∧
    is_Some (database_of "audit_glue_db" st) ∧
    bucket_of "curated_s3_bucket" st = Some b ∧
    audit_trail_calls (journal st) = [(logs, curated, audit_db, bucket_name b)] ∧
    position is_audit_trail (journal st) = Some n ∧
    ∀ r, r ∈ [logs; curated; audit_db] →
      ∃ i, position (produces r) (journal st) = Some i ∧ i < n.
Proof.
  exists (aborted ctx), 7, 6, 3, (storage_transform ctx), 4.
  split_and!; [apply build_aborts | try aborted_obs ..].
  - eexists. aborted_obs.
  - eexists. aborted_obs.
  - intros r Hr. repeat (apply elem_of_cons in Hr as [-> | Hr]).
    + exists 3. split; [reflexivity | lia].
    + exists 2. split; [reflexivity | lia].
    + exists 1. split; [reflexivity | lia].
    + inversion Hr.
Qed.

(** * The accessors *)




(** * The administrator role *)

(** C10: the constructor never assigns [__lf_admin_role].  On the stack
    every build leaves behind the field is missing and the read of the
    [lf_admin_role] accessor raises an attribute error; and no part of the
    constructor, the ones after line 107 included, makes the accessor
    readable on a stack where the field is missing. *)
Theorem lf_admin_role_raises (ctx : Context) :
  (attrs (build ctx).2 !! mangle "__lf_admin_role" = None ∧
   py_getattr "lf_admin_role" (build ctx).2 =
     (Raise (AttributeError
        "'DataLakeFoundations' object has no attribute '_DataLakeFoundations__lf_admin_role'"),
      (build ctx).2)) ∧
  ∀ part s, part ∈ parts ctx →
    attrs s !! mangle "__lf_admin_role" = None →
    py_getattr "lf_admin_role" (part s).2 =
      (Raise (AttributeError
         "'DataLakeFoundations' object has no attribute '_DataLakeFoundations__lf_admin_role'"),
       (part s).2).
Proof.
  assert (∀ s, attrs s !! mangle "__lf_admin_role" = None →
            py_getattr "lf_admin_role" s =
              (Raise (AttributeError
                 "'DataLakeFoundations' object has no attribute '_DataLakeFoundations__lf_admin_role'"),
               s)) as Missing.
  { intros s E.
    change (py_getattr "lf_admin_role" s) with (instance_get (mangle "__lf_admin_role") s).
    unfold instance_get. rewrite E. reflexivity. }
  assert (attrs (build ctx).2 !! mangle "__lf_admin_role" = None) as E.
  { rewrite build_aborts. cbn [snd attrs aborted]. apply aborted_attrs_absent. in_table. }
  split; [split; [exact E | apply Missing, E] |].
  intros part s Hpart Hs. apply Missing.
  pose proof (parts_keep_lf_admin_role ctx) as K.
  rewrite Forall_forall in K. rewrite (K part Hpart s). exact Hs.
Qed.

Lemma lf_admin_role_raises_witness :
  py_getattr "lf_admin_role" (identity_groups (build ctx0).2).2 =
    (Raise (AttributeError
       "'DataLakeFoundations' object has no attribute '_DataLakeFoundations__lf_admin_role'"),
     (identity_groups (build ctx0).2).2).
Proof.
  apply (proj2 (lf_admin_role_raises ctx0) identity_groups (build ctx0).2).
  - apply (list_elem_of_lookup_2 _ 6). reflexivity.
  - exact (proj1 (proj1 (lf_admin_role_raises ctx0))).
Defined.

(** * Further properties of the constructor *)

(** ** What the accessors hand out *)

Ltac all_typed :=
  repeat (apply Forall_cons; split; [eexists; aborted_obs |]); apply Forall_nil_2.

Ltac all_unread :=
  unfold late_accessors;
  repeat (apply Forall_cons; split;
          [eexists; unfold read;
           erewrite aborted_unread by first [reflexivity | in_table]; reflexivity |]);
  apply Forall_nil_2.

(** X2: on the stack every build leaves behind, the eight bucket and
    database accessors return eight different handles, each to an object of
    the kind the accessor is named for; the six other accessors (network,
    subnet selections, groups) raise an attribute error, their fields
    never having been stored. *)
Theorem accessor_handles_distinct_and_typed (ctx : Context) :
  ∃ st,
    build ctx = (Raise location_fault, st) ∧
    NoDup ((λ a, read a st) <$> tier_accessors) ∧
    Forall (λ a, is_Some (bucket_of a st))
      ["raw_s3_bucket"; "clean_s3_bucket"; "curated_s3_bucket"; "logs_s3_bucket"] ∧
    Forall (λ a, is_Some (database_of a st))
      ["raw_glue_db"; "clean_glue_db"; "curated_glue_db"; "audit_glue_db"] ∧
    Forall (λ a, ∃ msg, read a st = Raise (AttributeError msg)) late_accessors.
Proof.
  exists (aborted ctx).
  assert ((λ a, read a (aborted ctx)) <$> tier_accessors =
          Ok <$> [4; 5; 6; 7; 0; 1; 2; 3]) as E.
  { unfold tier_accessors. rewrite !fmap_cons, !fmap_nil.
    repeat (apply (f_equal2 cons); [apply aborted_read; reflexivity |]). reflexivity. }
  split_and!; [apply build_aborts | | all_typed | all_typed | all_unread].
  rewrite E. apply NoDup_fmap_2; [intros x y [= ->]; reflexivity | in_table].
Qed.

(** X3: the tier accessors hand out the very objects of the imported
    constructs, unchanged.  The raw, clean and curated databases are the
    raw, clean and transform databases of [DataLakeCatalog]; the raw,
    clean and curated buckets are the raw, clean and transform buckets of
    [DataLakeStorage]; the logs bucket is the one of the [AutoEmptyBucket]
    created with the UUID of the foundations. *)
Theorem tier_accessors_alias_constructs (ctx : Context) :
  ∃ st raw_db clean_db curated_db raw_b clean_b curated_b logs_b,
    build ctx = (Raise location_fault, st) ∧
    Created "DataLakeCatalog" (DataLakeCatalog raw_db clean_db curated_db) ∈ journal st ∧
    Created "DataLakeStorage" (DataLakeStorage raw_b clean_b curated_b) ∈ journal st ∧
    Created "Logs" (AutoEmptyBucket logs_b (FOUNDATIONS_UUID ctx)) ∈ journal st ∧
    read "raw_glue_db" st = Ok raw_db ∧
    read "clean_glue_db" st = Ok clean_db ∧
    read "curated_glue_db" st = Ok curated_db ∧
    read "raw_s3_bucket" st = Ok raw_b ∧
    read "clean_s3_bucket" st = Ok clean_b ∧
    read "curated_s3_bucket" st = Ok curated_b ∧
    read "logs_s3_bucket" st = Ok logs_b ∧
    bucket_of "raw_s3_bucket" st = Some (storage_raw ctx) ∧
    bucket_of "clean_s3_bucket" st = Some (storage_clean ctx) ∧
    bucket_of "curated_s3_bucket" st = Some (storage_transform ctx) ∧
    database_of "raw_glue_db" st = Some (catalog_raw ctx) ∧
    database_of "clean_glue_db" st = Some (catalog_clean ctx) ∧
    database_of "curated_glue_db" st = Some (catalog_transform ctx).
Proof.
  exists (aborted ctx), 0, 1, 2, 4, 5, 6, 7.
  split_and!; [apply build_aborts | | | | aborted_obs ..].
  - apply (list_elem_of_lookup_2 _ 0). reflexivity.
  - apply (list_elem_of_lookup_2 _ 2). reflexivity.
  - apply (list_elem_of_lookup_2 _ 3). reflexivity.
Qed.

(** X9: every build has added exactly five constructs to the scope of the
    stack when the constructor stops, under ids that are pairwise distinct
    and the same for every context; the registrations, the network and
    the groups are not among them. *)
Theorem construct_ids_fixed (ctx : Context) :
  ∃ st,
    build ctx = (Raise location_fault, st) ∧
    construct_ids (journal st) =
      [ "DataLakeCatalog"; "AuditGlueDB"; "DataLakeStorage"; "Logs"; "GlueAudit" ] ∧
    NoDup (construct_ids (journal st)).
Proof.
  exists (aborted ctx). split_and!; [apply build_aborts | reflexivity |].
  assert (construct_ids (journal (aborted ctx)) =
    [ "DataLakeCatalog"; "AuditGlueDB"; "DataLakeStorage"; "Logs"; "GlueAudit" ])
    as -> by reflexivity.
  in_table.
Qed.

(** ** Names across accounts *)

(** X7: the name of the logs bucket and the name of the audit database
    determine the account: two builds that agree on either name were run
    for the same account, so builds for different accounts never share
    these names. *)
Theorem account_names_injective (ctx ctx' : Context) :
  bucket_name <$> bucket_of "logs_s3_bucket" (build ctx).2 =
    bucket_name <$> bucket_of "logs_s3_bucket" (build ctx').2 ∨
  database_name <$> database_of "audit_glue_db" (build ctx).2 =
    database_name <$> database_of "audit_glue_db" (build ctx').2 →
  account ctx = account ctx'.
Proof.
  rewrite !build_aborts. cbn [snd].
  assert (∀ c, bucket_name <$> bucket_of "logs_s3_bucket" (aborted c) =
               Some ("ara-logs-" +:+ account c)) as Eb.
  { intros c. unfold bucket_of. erewrite aborted_deref by reflexivity. reflexivity. }
  assert (∀ c, database_name <$> database_of "audit_glue_db" (aborted c) =
               Some ("ara_audit_data_" +:+ account c)) as Ed.
  { intros c. unfold database_of. erewrite aborted_deref by reflexivity. reflexivity. }
  rewrite !Eb, !Ed. intros [[= E] | [= E]]; exact (inj (String.append _) _ _ E).
Qed.

Lemma account_names_injective_witness :
  account ctx0 = account ctx_keyless_raw.
Proof.
  apply (account_names_injective ctx0 ctx_keyless_raw).
  left. rewrite !build_aborts. cbn [snd]. unfold bucket_of.
  erewrite !aborted_deref by reflexivity. reflexivity.
Defined.

(** ** Private fields from outside the class *)

(** X5: the properties guard their own names only.  An assignment to the
    mangled name of the private field behind a property is accepted, the
    property then returns the assigned value, on any stack, and the
    properties over other fields return what they returned before.  (This
    is how [lf_admin_role] becomes readable.) *)
Theorem private_field_write_through (a field : string) (v : ref) (s : Stack) :
  assoc a properties = Some field →
  py_setattr (mangle field) v s =
    (Ok tt, {| attrs := <[mangle field := v]> (attrs s); heap := heap s;
               journal := journal s |}) ∧
  read a (after_op s (Setattr (mangle field) v)) = Ok v ∧
  ∀ b field', assoc b properties = Some field' → field' ≠ field →
    read b (after_op s (Setattr (mangle field) v)) = read b s.
Proof.
  intros E. split_and!.
  - unfold py_setattr. rewrite mangled_not_property. reflexivity.
  - rewrite (read_property a field _ E), after_setattr_mangled.
    by rewrite lookup_insert_eq.
  - intros b field' E' Hne.
    rewrite !(read_property b field' _ E'), after_setattr_mangled.
    rewrite lookup_insert_ne; [reflexivity |].
    intros Heq. apply Hne. symmetry. exact (inj (String.append _) _ _ Heq).
Qed.

Lemma private_field_write_through_witness :
  (∃ msg, read "lf_admin_role" (aborted ctx0) = Raise (AttributeError msg)) ∧
  read "lf_admin_role" (after_op (aborted ctx0) (Setattr (mangle "__lf_admin_role") 42)) =
    Ok 42.
Proof.
  split.
  - eexists. rewrite (read_property "lf_admin_role" "__lf_admin_role" _ eq_refl).
    cbn [attrs aborted]. rewrite aborted_attrs_absent by in_table. reflexivity.
  - exact (proj1 (proj2 (private_field_write_through
                           "lf_admin_role" "__lf_admin_role" 42 (aborted ctx0) eq_refl))).
Defined.

(** X6: deleting the mangled private field behind a property is accepted
    when the field is there, and the property then raises the attribute
    error that names the mangled field. *)
Theorem private_field_delete (a field : string) (s : Stack) :
  assoc a properties = Some field →
  is_Some (attrs s !! mangle field) →
  read a (after_op s (Delattr (mangle field))) =
    Raise (AttributeError
      ("'DataLakeFoundations' object has no attribute '" +:+ mangle field +:+ "'")).
Proof.
  intros E Hs.
  rewrite (read_property a field _ E), (after_delattr_mangled s field Hs).
  by rewrite lookup_delete_eq.
Qed.

Lemma private_field_delete_witness :
  read "raw_glue_db" (aborted ctx0) = Ok 0 ∧
  read "raw_glue_db" (after_op (aborted ctx0) (Delattr (mangle "__raw_glue_db"))) =
    Raise (AttributeError
      "'DataLakeFoundations' object has no attribute '_DataLakeFoundations__raw_glue_db'").
Proof.
  assert ((("__raw_glue_db" : string), (0 : ref)) ∈ handle_table) as Hin by in_table.
  split.
  - apply aborted_read. reflexivity.
  - apply (private_field_delete "raw_glue_db" "__raw_glue_db" (aborted ctx0) eq_refl).
    exists 0. cbn [attrs aborted]. exact (aborted_attrs_lookup "__raw_glue_db" 0 Hin).
Defined.
